(** * keras-cv building blocks: FusedMBConvBlock and the ResNeXt bottleneck

  A shallow embedding of [keras_cv/layers/fusedmbconv.py] and
  [keras_cv/models/resnext.py].  Both files wire Keras primitives into a
  graph, so the embedding makes that graph the value the functions return:
  a symbolic tensor records which layers were applied to which tensors,
  with the keyword arguments each layer was built with.  Python's run-time
  errors (unbound names, missing attributes, division by zero) are results
  of an error monad; methods that read and write [self] run over the
  object's attribute dictionary. *)

From Stdlib Require Import ZArith QArith Qround Lqa String List Lia.
From Stdlib Require Import Floats Uint63.
From stdpp Require Import base option gmap strings list fin_maps.
Import ListNotations.

Set Warnings "-register-all".

Local Open Scope string_scope.
Local Open Scope list_scope.
Local Open Scope Z_scope.

(** ** Python values, exceptions and the two effect layers *)

Module Py.

(** Plain data that configuration dictionaries and keyword arguments
    carry.  Floats are kept as exact rationals. *)
Inductive pyval : Type :=
| VNone
| VBool (b : bool)
| VInt (z : Z)
| VFloat (q : Q)
| VStr (s : string)
| VTuple (l : list Z).

Inductive exn : Type :=
| NameError (name : string)
| AttributeError (attr : string)
| ZeroDivisionError
| IndexError
| TypeError (what : string)
| ValueError (msg : string)
| InvalidArgumentError (msg : string).

Inductive result (A : Type) : Type :=
| Ok (a : A)
| Raise (e : exn).
Arguments Ok {A} a.
Arguments Raise {A} e.

Definition bind {A B} (m : result A) (k : A -> result B) : result B :=
  match m with
  | Ok a => k a
  | Raise e => Raise e
  end.

(** [a // b] on ints: floor division, [ZeroDivisionError] when [b] is 0.
    [Z.div] rounds toward minus infinity for either sign of the divisor,
    as Python does. *)
Definition floordiv (a b : Z) : result Z :=
  if b =? 0 then Raise ZeroDivisionError else Ok (a / b).

(** [range(n)]: 0, 1, ..., n-1, empty when [n <= 0]. *)
Definition range (n : Z) : list Z := map Z.of_nat (seq 0 (Z.to_nat n)).

(** [l[i]]: a negative index counts from the end; [IndexError] outside
    the list. *)
Definition getitem {A} (l : list A) (i : Z) : result A :=
  let j := if i <? 0 then i + Z.of_nat (length l) else i in
  if j <? 0 then Raise IndexError
  else match l !! Z.to_nat j with
       | Some a => Ok a
       | None => Raise IndexError
       end.

(** [int(q)]: truncation toward zero. *)
Definition int (q : Q) : Z := Z.quot (Qnum q) (Zpos (Qden q)).

(** [float(z)] for an int below 2^53 in size: the double of that value. *)
Definition double_of_int (z : Z) : float :=
  if z <? 0 then PrimFloat.opp (PrimFloat.of_uint63 (Uint63.of_Z (- z)))
  else PrimFloat.of_uint63 (Uint63.of_Z z).

(** The double a decimal literal denotes: the double nearest to the
    rational, which the correctly rounded division of numerator by
    denominator gives when both are below 2^53. *)
Definition double_of_decimal (q : Q) : float :=
  PrimFloat.div (double_of_int (Qnum q)) (double_of_int (Zpos (Qden q))).

(** [int(x)] for a finite double [x]: truncation toward zero. *)
Definition int_of_double (x : float) : Z :=
  match Prim2SF x with
  | S754_finite s m e =>
      let a := if 0 <=? e then Zpos m * 2 ^ e else Zpos m / 2 ^ (- e) in
      if s then - a else a
  | _ => 0
  end.

(** Truthiness of a float: anything but zero. *)
Definition truthy (q : Q) : bool := negb (Qeq_bool q 0).

Definition Qltb (a b : Q) : bool := negb (Qle_bool b a).

End Py.

Import Py.

Declare Scope result_scope.
Delimit Scope result_scope with result.
Notation "x <- c ;; k" := (Py.bind c (fun x => k))
(at level 100, c at next level, right associativity) : result_scope.

(** ** The Keras primitives, as the nodes of a layer graph *)

Module Keras.

(** A kernel size or a stride: one int, or a pair of ints. *)
Inductive dims : Type :=
| DInt (k : Z)
| DPair (a b : Z).

(** Keras turns a single int into a pair (conv_utils.normalize_tuple). *)
Definition normalize_tuple (d : dims) : Z * Z :=
  match d with
  | DInt k => (k, k)
  | DPair a b => (a, b)
  end.

Definition of_dims (d : dims) : pyval :=
  match d with
  | DInt k => VInt k
  | DPair a b => VTuple [a; b]
  end.

Inductive initializer : Type :=
| glorot_uniform
| VarianceScaling (scale : Q) (mode distribution : string).

(** [Conv2D(...)]: the keyword arguments of the call.  Fields the caller
    leaves out hold the Keras defaults: strides (1, 1), "valid" padding, no
    activation, a bias, the Glorot uniform initializer, no name. *)
Record Conv2D : Type := {
  filters : Z;
  kernel_size : dims;
  strides : dims;
  padding : string;
  data_format : option string;
  activation : option string;
  use_bias : bool;
  kernel_initializer : initializer;
  name : option string;
  kwargs : gmap string pyval
}.

Record BatchNormalization : Type := {
  axis : Z;
  momentum : Q;
  bn_name : option string
}.

Definition BatchNormalization_defaults : BatchNormalization :=
  {| axis := -1; momentum := 99 # 100; bn_name := None |}.

(** [Dropout(rate, noise_shape, name)].  [rate] is the fraction of units
    dropped in training; with noise shape (None, 1, 1, 1) one draw is made
    per sample.  At inference the layer is the identity. *)
Record Dropout : Type := {
  rate : Q;
  noise_shape : list (option Z);
  drop_name : option string
}.

Inductive layer : Type :=
| LConv2D (c : Conv2D)
| LBatchNormalization (b : BatchNormalization)
| LActivation (activation : string) (name : option string)
| LGlobalAveragePooling2D (name : option string)
| LReshape (target_shape : list Z) (name : option string)
| LDropout (d : Dropout)
| Lrelu.                                  (* tf.nn.relu *)

Inductive merge : Type := add | multiply.

(** Symbolic channels-last tensors. *)
Inductive tensor : Type :=
| Placeholder (h w c : Z)                       (* an input feature map *)
| Apply (l : layer) (x : tensor)                (* layer(x) *)
| Merge (op : merge) (name : option string) (x y : tensor)
| Slice (lo hi : Z) (x : tensor)                (* x[:, :, :, lo:hi] *)
| Concat (xs : list tensor).                    (* tf.concat(xs, axis=-1) *)

(** [tf.concat] refuses an empty list. *)
Definition tf_concat (xs : list tensor) : result tensor :=
  match xs with
  | [] => Raise (InvalidArgumentError "concat of an empty list")
  | _ => Ok (Concat xs)
  end.

(** Python slice bounds against a length [n]. *)
Definition clip (n k : Z) : Z :=
  if k <? 0 then Z.max 0 (k + n) else Z.min k n.

(** Size of the channel axis of a tensor. *)
Fixpoint channels (t : tensor) : Z :=
  match t with
  | Placeholder _ _ c => c
  | Apply l x =>
      match l with
      | LConv2D c => filters c
      | LReshape shape _ => List.last shape 0
      | _ => channels x
      end
  | Merge _ _ x y => Z.max (channels x) (channels y)
  | Slice lo hi x =>
      let n := channels x in Z.max 0 (clip n hi - clip n lo)
  | Concat xs =>
      (fix total (l : list tensor) : Z :=
         match l with
         | [] => 0
         | x :: l' => channels x + total l'
         end) xs
  end.

(** The graph a tensor denotes at inference: dropout is the identity. *)
Fixpoint inference (t : tensor) : tensor :=
  match t with
  | Placeholder h w c => Placeholder h w c
  | Apply (LDropout _) x => inference x
  | Apply l x => Apply l (inference x)
  | Merge op n x y => Merge op n (inference x) (inference y)
  | Slice lo hi x => Slice lo hi (inference x)
  | Concat xs => Concat (map inference xs)
  end.

(** The base class [Layer], as far as the two files rely on it: a layer
    has a name, a trainable flag and a dtype; [Layer.__init__] takes them
    as keyword arguments (the few other keywords Keras knows are left out
    and refused like unknown ones); [Layer.get_config] returns them;
    [Layer.from_config] calls the class with the entries of the config as
    keyword arguments. *)
Record Layer : Type := {
  layer_name : string;
  trainable : bool;
  dtype : string
}.

Definition Layer_keywords : gset string := {[ "name"; "trainable"; "dtype" ]}.

Definition Layer_init (default_name : string) (kwargs : gmap string pyval)
    : result Layer :=
  if decide (dom kwargs ⊆ Layer_keywords) then
    (name <- match kwargs !! "name" with
             | None | Some VNone => Ok default_name
             | Some (VStr s) => Ok s
             | Some _ => Raise (TypeError "name")
             end ;;
     trainable <- match kwargs !! "trainable" with
                  | None => Ok true
                  | Some (VBool b) => Ok b
                  | Some _ => Raise (TypeError "trainable")
                  end ;;
     dtype <- match kwargs !! "dtype" with
              | None | Some VNone => Ok "float32"
              | Some (VStr s) => Ok s
              | Some _ => Raise (TypeError "dtype")
              end ;;
     Ok {| layer_name := name; trainable := trainable; dtype := dtype |})%result
  else Raise (TypeError "Keyword argument not understood").

Definition Layer_get_config (l : Layer) : gmap string pyval :=
  {[ "name" := VStr (layer_name l);
     "trainable" := VBool (trainable l);
     "dtype" := VStr (dtype l) ]}.

(** [dict(items)]: a later item replaces an earlier one with its key. *)
Definition dict (items : list (string * pyval)) : gmap string pyval :=
  list_to_map (reverse items).

(** [d.items()] *)
Definition items (d : gmap string pyval) : list (string * pyval) :=
  map_to_list d.

End Keras.

Import Keras.

(** ** keras_cv/models/resnext.py *)

Module resnext.

(** What an attribute of a layer object holds: plain data, or the list of
    sub-layers that [conv_list] is. *)
Inductive value : Type :=
| Data (v : pyval)
| Layers (l : list Conv2D).

(** A method body: it runs over the attribute dictionary of [self] and
    either returns or raises.  The dictionary is kept as it was when the
    exception left the method. *)
Definition method (A : Type) : Type :=
  gmap string value -> gmap string value * result A.

Definition ret {A} (a : A) : method A := fun self => (self, Ok a).

Definition mbind {A B} (m : method A) (k : A -> method B) : method B :=
  fun self =>
    match m self with
    | (self', Ok a) => k a self'
    | (self', Raise e) => (self', Raise e)
    end.

Definition lift {A} (r : result A) : method A := fun self => (self, r).

(** [self.attr = v] *)
Definition setattr (attr : string) (v : value) : method unit :=
  fun self => (<[attr := v]> self, Ok tt).

(** [self.attr]: [AttributeError] when nothing was stored under [attr]. *)
Definition getattr (attr : string) : method value :=
  fun self =>
    match self !! attr with
    | Some v => (self, Ok v)
    | None => (self, Raise (AttributeError attr))
    end.

Definition as_int (v : value) : result Z :=
  match v with
  | Data (VInt z) => Ok z
  | _ => Raise (TypeError "an integer is required")
  end.

Definition as_layers (v : value) : result (list Conv2D) :=
  match v with
  | Layers l => Ok l
  | _ => Raise (TypeError "a list of layers is required")
  end.

Declare Scope method_scope.
Delimit Scope method_scope with method.
Notation "x <- c ;; k" := (mbind c (fun x => k))
  (at level 100, c at next level, right associativity) : method_scope.
Notation "c ;;; k" := (mbind c (fun _ => k))
  (at level 100, k at level 200, right associativity) : method_scope.

Local Open Scope method_scope.

Definition getattr_int (attr : string) : method Z :=
  v <- getattr attr ;; lift (as_int v).

Definition getattr_layers (attr : string) : method (list Conv2D) :=
  v <- getattr attr ;; lift (as_layers v).

(** [super(GroupConv2D, self).__init__()]: the attributes the Keras base
    class gives every layer.  It has none called [groups]. *)
Definition Layer_init : method unit :=
  setattr "name" (Data (VStr "group_conv2d")) ;;;
  setattr "trainable" (Data (VBool true)) ;;;
  setattr "built" (Data (VBool false)).

(** The convolution the loop of [__init__] builds for one group. *)
Definition group_conv (group_out_num : Z) (kernel_size strides : dims)
    (padding : string) (kwargs : gmap string pyval) : Conv2D :=
  {| filters := group_out_num; kernel_size := kernel_size;
     strides := strides; padding := padding; data_format := None;
     activation := None; use_bias := true;
     kernel_initializer := glorot_uniform; name := None;
     kwargs := kwargs |}.

(** The body of the loop of [__init__], once per element of the range. *)
Fixpoint init_loop (indices : list Z) (kernel_size strides : dims)
    (padding : string) (kwargs : gmap string pyval) : method unit :=
  match indices with
  | [] => ret tt
  | _ :: rest =>
      conv_list <- getattr_layers "conv_list" ;;
      group_out_num <- getattr_int "group_out_num" ;;
      setattr "conv_list"
        (Layers (conv_list ++
                 [group_conv group_out_num kernel_size strides padding
                    kwargs])) ;;;
      init_loop rest kernel_size strides padding kwargs
  end.

(** [GroupConv2D.__init__] *)
Definition GroupConv2D_init (input_channels output_channels groups : Z)
    (kernel_size strides : dims) (padding : string)
    (kwargs : gmap string pyval) : method unit :=
  Layer_init ;;;
  setattr "kernel_size" (Data (of_dims kernel_size)) ;;;
  setattr "strides" (Data (of_dims strides)) ;;;
  setattr "padding" (Data (VStr padding)) ;;;
  (group_in_num <- lift (floordiv input_channels groups) ;;
   setattr "group_in_num" (Data (VInt group_in_num))) ;;;
  (group_out_num <- lift (floordiv output_channels groups) ;;
   setattr "group_out_num" (Data (VInt group_out_num))) ;;;
  setattr "conv_list" (Layers []) ;;;
  (n <- getattr_int "groups" ;;
   init_loop (range n) kernel_size strides padding kwargs).

(** The attributes [__init__] has stored on [self] when it reaches its
    loop (for a non-zero [groups]). *)
Definition attrs_before_loop (input_channels output_channels groups : Z)
    (kernel_size strides : dims) (padding : string)
    (self : gmap string value) : gmap string value :=
  <["conv_list" := Layers []]>
  (<["group_out_num" := Data (VInt (output_channels / groups))]>
  (<["group_in_num" := Data (VInt (input_channels / groups))]>
  (<["padding" := Data (VStr padding)]>
  (<["strides" := Data (of_dims strides)]>
  (<["kernel_size" := Data (of_dims kernel_size)]>
  (<["built" := Data (VBool false)]>
  (<["trainable" := Data (VBool true)]>
  (<["name" := Data (VStr "group_conv2d")]> self)))))))).

(** The body of the loop of [call], with [feature_map_list] threaded. *)
Fixpoint call_loop (indices : list Z) (inputs : tensor)
    (feature_map_list : list tensor) : method (list tensor) :=
  match indices with
  | [] => ret feature_map_list
  | i :: rest =>
      conv_list <- getattr_layers "conv_list" ;;
      conv <- lift (getitem conv_list i) ;;
      lo <- getattr_int "group_in_num" ;;
      hi <- getattr_int "group_in_num" ;;
      let x_i := Apply (LConv2D conv) (Slice (i * lo) ((i + 1) * hi) inputs) in
      call_loop rest inputs (feature_map_list ++ [x_i])
  end.

(** [GroupConv2D.call] *)
Definition GroupConv2D_call (inputs : tensor) : method tensor :=
  n <- getattr_int "groups" ;;
  feature_map_list <- call_loop (range n) inputs [] ;;
  lift (tf_concat feature_map_list).

(** [GroupConv2D(...)]: a fresh object, [__init__] run on it; the caller
    gets the object only when [__init__] returns. *)
Definition GroupConv2D (input_channels output_channels groups : Z)
    (kernel_size strides : dims) (padding : string)
    (kwargs : gmap string pyval) : result (gmap string value) :=
  match GroupConv2D_init input_channels output_channels groups
          kernel_size strides padding kwargs ∅ with
  | (self, Ok _) => Ok self
  | (_, Raise e) => Raise e
  end.

(** [layer(x)] on a constructed layer. *)
Definition GroupConv2D_apply (self : gmap string value) (x : tensor)
    : result tensor :=
  snd (GroupConv2D_call x self).

Local Close Scope method_scope.
Local Open Scope result_scope.

Definition ConvBlock (inputs : tensor) (filters : Z)
    (kernel_size strides : dims) (padding : string) : tensor :=
  let x := Apply (LConv2D {| filters := filters; kernel_size := kernel_size;
                             strides := strides; padding := padding;
                             data_format := None; activation := None;
                             use_bias := true;
                             kernel_initializer := glorot_uniform;
                             name := None; kwargs := ∅ |}) inputs in
  let x := Apply (LBatchNormalization BatchNormalization_defaults) x in
  let x := Apply Lrelu x in
  x.

(** The right-hand side of [shortcut = ...] in [ResNeXt_BottleNeck]. *)
Definition shortcut (inputs : tensor) (filters : Z) (strides : dims)
    : tensor :=
  ConvBlock inputs (2 * filters) (DPair 1 1) strides "same".

(** The body of [ResNeXt_BottleNeck], over the class that the global name
    [GroupConv2D] is bound to when the function runs. *)
Definition ResNeXt_BottleNeck_with
    (cls : Z -> Z -> Z -> dims -> dims -> string -> gmap string pyval ->
           result (gmap string value))
    (inputs : tensor) (filters : Z) (strides : dims) (groups : Z)
    : result tensor :=
  let x := ConvBlock inputs filters (DPair 1 1) (DInt 1) "same" in
  layer <- cls filters filters groups (DPair 3 3) strides "same" ∅ ;;
  x <- GroupConv2D_apply layer x ;;
  let x := Apply (LBatchNormalization BatchNormalization_defaults) x in
  let x := Apply Lrelu x in
  let x := ConvBlock x (2 * filters) (DPair 1 1) (DInt 1) "same" in
  let shortcut := shortcut inputs filters strides in
  let outputs := Merge add None x shortcut in
  Ok outputs.

(** [ResNeXt_BottleNeck], with the class of this module. *)
Definition ResNeXt_BottleNeck (inputs : tensor) (filters : Z)
    (strides : dims) (groups : Z) : result tensor :=
  ResNeXt_BottleNeck_with GroupConv2D inputs filters strides groups.

(** The constructor of a subclass of [GroupConv2D] that inherits
    [__init__] and has [class_attrs] as class attributes. *)
Definition GroupConv2D_subclass (class_attrs : gmap string value)
    (input_channels output_channels groups : Z)
    (kernel_size strides : dims) (padding : string)
    (kwargs : gmap string pyval) : result (gmap string value) :=
  match GroupConv2D_init input_channels output_channels groups
          kernel_size strides padding kwargs class_attrs with
  | (self, Ok _) => Ok self
  | (_, Raise e) => Raise e
  end.

End resnext.

(** ** keras_cv/layers/fusedmbconv.py *)

Module fusedmbconv.

Local Open Scope result_scope.

Definition BN_AXIS : Z := 3.

Definition CONV_KERNEL_INITIALIZER : initializer :=
  VarianceScaling 2 "fan_out" "truncated_normal".

(** What a name of the module's global namespace is bound to. *)
Inductive object : Type :=
| OModule (name : string)
| OInt (z : Z)
| OInitializer (i : initializer)
| OClass (name : string).

(** The names the module binds at top level: its three imports, its two
    constants and its class. *)
Definition module_globals : gmap string object :=
  {[ "tf" := OModule "tensorflow";
     "backend" := OModule "keras.backend";
     "layers" := OModule "tensorflow.keras.layers";
     "BN_AXIS" := OInt BN_AXIS;
     "CONV_KERNEL_INITIALIZER" := OInitializer CONV_KERNEL_INITIALIZER;
     "FusedMBConvBlock" := OClass "FusedMBConvBlock" ]}.

(** A name that is neither a local nor a parameter of the function is
    looked up in the global namespace ([input_filters] and [expand_ratio]
    are no builtins either). *)
Definition load_global (globals : gmap string object) (name : string)
    : result object :=
  match globals !! name with
  | Some o => Ok o
  | None => Raise (NameError name)
  end.

Definition mul (a b : object) : result Z :=
  match a, b with
  | OInt x, OInt y => Ok (x * y)
  | _, _ => Raise (TypeError "unsupported operand type(s) for *")
  end.

(** The attributes [__init__] stores, and the base layer under them.
    [expand_ratio] is an int and the three ratios are floats, as the
    defaults have them. *)
Record FusedMBConvBlock : Type := {
  base : Layer;
  input_filters : Z;
  output_filters : Z;
  expand_ratio : Z;
  kernel_size : dims;
  strides : dims;
  se_ratio : Q;
  bn_momentum : Q;
  activation : string;
  survival_probability : Q
}.

(** [FusedMBConvBlock.__init__] *)
Definition FusedMBConvBlock_init (input_filters output_filters : Z)
    (expand_ratio : Z) (kernel_size strides : dims)
    (se_ratio bn_momentum : Q) (activation : string)
    (survival_probability : Q) (kwargs : gmap string pyval)
    : result FusedMBConvBlock :=
  base <- Layer_init "fused_mb_conv_block" kwargs ;;
  Ok {| base := base;
        input_filters := input_filters;
        output_filters := output_filters;
        expand_ratio := expand_ratio;
        kernel_size := kernel_size;
        strides := strides;
        se_ratio := se_ratio;
        bn_momentum := bn_momentum;
        activation := activation;
        survival_probability := survival_probability |}.

(** [FusedMBConvBlock.build]: it names the layer when it has no name; the
    base class has given every layer one by then. *)
Definition build (self : FusedMBConvBlock) : FusedMBConvBlock := self.

(** [self.name + suffix] *)
Definition named (self : FusedMBConvBlock) (suffix : string) : option string :=
  Some (layer_name (base self) ++ suffix)%string.

(** [x == 1] for a stride or kernel size: a pair is never equal to 1. *)
Definition is_one (d : dims) : bool :=
  match d with
  | DInt k => k =? 1
  | DPair _ _ => false
  end.

(** *** The layers [call] builds, one definition per constructor call *)

Definition expand_conv (self : FusedMBConvBlock) (filters : Z) : Conv2D :=
  {| Keras.filters := filters;
     Keras.kernel_size := kernel_size self;
     Keras.strides := strides self;
     kernel_initializer := CONV_KERNEL_INITIALIZER;
     data_format := Some "channels_last";
     padding := "same";
     use_bias := false;
     Keras.activation := None;
     name := named self "expand_conv";
     kwargs := ∅ |}.

Definition expand_bn (self : FusedMBConvBlock) : BatchNormalization :=
  {| axis := BN_AXIS; momentum := bn_momentum self;
     bn_name := named self "expand_bn" |}.

Definition filters_se (self : FusedMBConvBlock) : Z :=
  Z.max 1 (int_of_double
             (PrimFloat.mul (double_of_int (input_filters self))
                (double_of_decimal (se_ratio self)))).

Definition se_reduce (self : FusedMBConvBlock) : Conv2D :=
  {| Keras.filters := filters_se self;
     Keras.kernel_size := DInt 1;
     Keras.strides := DPair 1 1;
     padding := "same";
     Keras.activation := Some (activation self);
     kernel_initializer := CONV_KERNEL_INITIALIZER;
     data_format := None;
     use_bias := true;
     name := named self "se_reduce";
     kwargs := ∅ |}.

Definition se_expand (self : FusedMBConvBlock) (filters : Z) : Conv2D :=
  {| Keras.filters := filters;
     Keras.kernel_size := DInt 1;
     Keras.strides := DPair 1 1;
     padding := "same";
     Keras.activation := Some "sigmoid";
     kernel_initializer := CONV_KERNEL_INITIALIZER;
     data_format := None;
     use_bias := true;
     name := named self "se_expand";
     kwargs := ∅ |}.

Definition project_conv (self : FusedMBConvBlock) : Conv2D :=
  {| Keras.filters := output_filters self;
     Keras.kernel_size :=
       if negb (expand_ratio self =? 1) then DInt 1 else kernel_size self;
     Keras.strides :=
       if negb (expand_ratio self =? 1) then DInt 1 else strides self;
     kernel_initializer := CONV_KERNEL_INITIALIZER;
     padding := "same";
     use_bias := false;
     data_format := None;
     Keras.activation := None;
     name := named self "project_conv";
     kwargs := ∅ |}.

Definition project_bn (self : FusedMBConvBlock) : BatchNormalization :=
  {| axis := BN_AXIS; momentum := bn_momentum self;
     bn_name := named self "project_bn" |}.

Definition drop (self : FusedMBConvBlock) : Dropout :=
  {| rate := survival_probability self;
     noise_shape := [None; Some 1; Some 1; Some 1];
     drop_name := named self "drop" |}.

(** *** The four phases of [call], after [filters] has its value *)

Definition expansion_phase (self : FusedMBConvBlock) (filters : Z)
    (inputs : tensor) : tensor :=
  if negb (expand_ratio self =? 1) then
    let x := Apply (LConv2D (expand_conv self filters)) inputs in
    let x := Apply (LBatchNormalization (expand_bn self)) x in
    let x := Apply (LActivation (activation self)
                      (named self "expand_activation")) x in
    x
  else inputs.

Definition squeeze_and_excite (self : FusedMBConvBlock) (filters : Z)
    (x : tensor) : tensor :=
  if Qltb 0 (se_ratio self) && Qle_bool (se_ratio self) 1 then
    let se := Apply (LGlobalAveragePooling2D (named self "se_squeeze")) x in
    let se_shape :=
      if BN_AXIS =? 1 then [filters; 1; 1] else [1; 1; filters] in
    let se := Apply (LReshape se_shape (named self "se_reshape")) se in
    let se := Apply (LConv2D (se_reduce self)) se in
    let se := Apply (LConv2D (se_expand self filters)) se in
    Merge multiply (named self "se_excite") x se
  else x.

Definition output_phase (self : FusedMBConvBlock) (x : tensor) : tensor :=
  let x := Apply (LConv2D (project_conv self)) x in
  let x := Apply (LBatchNormalization (project_bn self)) x in
  if expand_ratio self =? 1 then
    Apply (LActivation (activation self)
             (named self "project_activation")) x
  else x.

Definition residual (self : FusedMBConvBlock) (x inputs : tensor) : tensor :=
  if is_one (strides self) && (input_filters self =? output_filters self)
  then
    let x := if truthy (survival_probability self)
             then Apply (LDropout (drop self)) x else x in
    Merge add (named self "add") x inputs
  else x.

(** Everything in [call] below its first assignment. *)
Definition call_body (self : FusedMBConvBlock) (filters : Z)
    (inputs : tensor) : tensor :=
  let x := expansion_phase self filters inputs in
  let x := squeeze_and_excite self filters x in
  let x := output_phase self x in
  residual self x inputs.

(** [FusedMBConvBlock.call], run in a global namespace.  Its first
    assignment reads the bare names [input_filters] and [expand_ratio]. *)
Definition call_in (globals : gmap string object) (self : FusedMBConvBlock)
    (inputs : tensor) : result tensor :=
  a <- load_global globals "input_filters" ;;
  b <- load_global globals "expand_ratio" ;;
  filters <- mul a b ;;
  Ok (call_body self filters inputs).

(** [FusedMBConvBlock.call] in the namespace of its own module. *)
Definition call (self : FusedMBConvBlock) (inputs : tensor) : result tensor :=
  call_in module_globals self inputs.

(** *** Configuration *)

Definition parameter_names : list string :=
  [ "input_filters"; "output_filters"; "expand_ratio"; "kernel_size";
    "strides"; "se_ratio"; "bn_momentum"; "activation";
    "survival_probability" ].

(** The dictionary [config] of [get_config]. *)
Definition config (self : FusedMBConvBlock) : gmap string pyval :=
  {[ "input_filters" := VInt (input_filters self);
     "output_filters" := VInt (output_filters self);
     "expand_ratio" := VInt (expand_ratio self);
     "kernel_size" := of_dims (kernel_size self);
     "strides" := of_dims (strides self);
     "se_ratio" := VFloat (se_ratio self);
     "bn_momentum" := VFloat (bn_momentum self);
     "activation" := VStr (activation self);
     "survival_probability" := VFloat (survival_probability self) ]}.

(** [FusedMBConvBlock.get_config] *)
Definition get_config (self : FusedMBConvBlock) : gmap string pyval :=
  let base_config := Layer_get_config (base self) in
  dict (items base_config ++ items (config self)).

(** Binding one keyword of the call to a typed parameter. *)
Definition to_int (v : pyval) : result Z :=
  match v with
  | VInt z => Ok z
  | _ => Raise (TypeError "int")
  end.

Definition to_float (v : pyval) : result Q :=
  match v with
  | VFloat q => Ok q
  | VInt z => Ok (inject_Z z)
  | _ => Raise (TypeError "float")
  end.

Definition to_str (v : pyval) : result string :=
  match v with
  | VStr s => Ok s
  | _ => Raise (TypeError "str")
  end.

Definition to_dims (v : pyval) : result dims :=
  match v with
  | VInt k => Ok (DInt k)
  | VTuple [a; b] => Ok (DPair a b)
  | _ => Raise (TypeError "int or pair")
  end.

Definition required {A} (config : gmap string pyval) (key : string)
    (conv : pyval -> result A) : result A :=
  match config !! key with
  | Some v => conv v
  | None => Raise (TypeError ("missing required argument " ++ key)%string)
  end.

Definition optional {A} (config : gmap string pyval) (key : string)
    (conv : pyval -> result A) (default : A) : result A :=
  match config !! key with
  | Some v => conv v
  | None => Ok default
  end.

(** [from_config], inherited from [Layer]: the class called with the
    entries of [config] as keyword arguments.  The nine named parameters
    take theirs (or their defaults), the others go to the base class. *)
Definition from_config (config : gmap string pyval)
    : result FusedMBConvBlock :=
  input_filters <- required config "input_filters" to_int ;;
  output_filters <- required config "output_filters" to_int ;;
  expand_ratio <- optional config "expand_ratio" to_int 1 ;;
  kernel_size <- optional config "kernel_size" to_dims (DInt 3) ;;
  strides <- optional config "strides" to_dims (DInt 1) ;;
  se_ratio <- optional config "se_ratio" to_float 0%Q ;;
  bn_momentum <- optional config "bn_momentum" to_float (9 # 10)%Q ;;
  activation <- optional config "activation" to_str "swish" ;;
  survival_probability <-
    optional config "survival_probability" to_float (8 # 10)%Q ;;
  let kwargs := foldr delete config parameter_names in
  FusedMBConvBlock_init input_filters output_filters expand_ratio
    kernel_size strides se_ratio bn_momentum activation
    survival_probability kwargs.

End fusedmbconv.

(** ** What the specification says, in the vocabulary of the code *)

Module Spec.

(** Arithmetic rounding to the nearest integer, halves upward. *)
Definition round (q : Q) : Z := Qfloor (q + (1 # 2)).

(** "reduce to max(1, round(input_filters * se_ratio)) channels" *)
Definition filters_se (self : fusedmbconv.FusedMBConvBlock) : Z :=
  Z.max 1 (round (inject_Z (fusedmbconv.input_filters self)
                  * fusedmbconv.se_ratio self)).

(** "zeroed with probability 1 - survival_probability" *)
Definition drop_probability (self : fusedmbconv.FusedMBConvBlock) : Q :=
  1 - fusedmbconv.survival_probability self.

(** "a parallel shortcut: 1x1 conv + batchnorm (no activation)
    projecting the original input to 2 * filters channels using the same
    strides" *)
Definition shortcut (inputs : tensor) (filters : Z) (strides : dims)
    : tensor :=
  Apply (LBatchNormalization BatchNormalization_defaults)
    (Apply (LConv2D {| filters := 2 * filters; kernel_size := DPair 1 1;
                       strides := strides; padding := "same";
                       data_format := None; activation := None;
                       use_bias := true;
                       kernel_initializer := glorot_uniform;
                       name := None; kwargs := ∅ |}) inputs).

(** "select input channels [i * group_in_size, (i+1) * group_in_size),
    apply that group's independent convolution" *)
Definition group_output (group_in_size : Z) (inputs : tensor) (i : Z)
    (conv : Conv2D) : tensor :=
  Apply (LConv2D conv)
    (Slice (i * group_in_size) ((i + 1) * group_in_size) inputs).

(** A configuration error: a [ValueError]; which parameter its message
    names is left open. *)
Definition configuration_error {A} (r : result A) : Prop :=
  exists msg, r = Raise (ValueError msg).

End Spec.

(** ** Inputs the examples run on *)

Module Inputs.

Import fusedmbconv.

Definition fresh_layer : Layer :=
  {| layer_name := "fused_mb_conv_block"; trainable := true;
     dtype := "float32" |}.

(** [FusedMBConvBlock(32, 32)] *)
Definition block_default : FusedMBConvBlock :=
  {| base := fresh_layer; input_filters := 32; output_filters := 32;
     expand_ratio := 1; kernel_size := DInt 3; strides := DInt 1;
     se_ratio := 0; bn_momentum := 9 # 10; activation := "swish";
     survival_probability := 8 # 10 |}.

(** [FusedMBConvBlock(32, 32, expand_ratio=4)] *)
Definition block_expanded : FusedMBConvBlock :=
  {| base := fresh_layer; input_filters := 32; output_filters := 32;
     expand_ratio := 4; kernel_size := DInt 3; strides := DInt 1;
     se_ratio := 0; bn_momentum := 9 # 10; activation := "swish";
     survival_probability := 8 # 10 |}.

(** [FusedMBConvBlock(32, 64, strides=2)] *)
Definition block_strided : FusedMBConvBlock :=
  {| base := fresh_layer; input_filters := 32; output_filters := 64;
     expand_ratio := 1; kernel_size := DInt 3; strides := DInt 2;
     se_ratio := 0; bn_momentum := 9 # 10; activation := "swish";
     survival_probability := 8 # 10 |}.

(** [FusedMBConvBlock(7, 7, se_ratio=0.25)] *)
Definition block_se : FusedMBConvBlock :=
  {| base := fresh_layer; input_filters := 7; output_filters := 7;
     expand_ratio := 1; kernel_size := DInt 3; strides := DInt 1;
     se_ratio := 1 # 4; bn_momentum := 9 # 10; activation := "swish";
     survival_probability := 8 # 10 |}.

(** A feature map of shape (N, 8, 8, 32), and one with 7 and one with 16
    channels. *)
Definition feature_map : tensor := Placeholder 8 8 32.
Definition feature_map7 : tensor := Placeholder 8 8 7.
Definition feature_map16 : tensor := Placeholder 8 8 16.

(** An object of a class that does bind [groups], here to 4. *)
Definition with_groups_4 : gmap string resnext.value :=
  {[ "groups" := resnext.Data (VInt 4) ]}.

End Inputs.

(** ** Further objects and blocks *)

Module Samples.

Import resnext fusedmbconv Inputs.

(** Two convolutions that differ, to tell the groups apart. *)
Definition conv_a : Conv2D := group_conv 5 (DPair 3 3) (DPair 1 1) "same" ∅.
Definition conv_b : Conv2D := group_conv 7 (DPair 3 3) (DPair 1 1) "same" ∅.

(** An object with [groups] 2, three channels per group and a convolution
    for each group. *)
Definition two_groups : gmap string resnext.value :=
  {[ "groups" := Data (VInt 2); "group_in_num" := Data (VInt 3);
     "conv_list" := Layers [conv_a; conv_b] ]}.


(** [FusedMBConvBlock(32, 32, strides=(1, 1))] *)
Definition block_pair_strides : FusedMBConvBlock :=
  {| base := fresh_layer; input_filters := 32; output_filters := 32;
     expand_ratio := 1; kernel_size := DInt 3; strides := DPair 1 1;
     se_ratio := 0; bn_momentum := 9 # 10; activation := "swish";
     survival_probability := 8 # 10 |}.

(** [FusedMBConvBlock(32, 32, survival_probability=0.0)] *)
Definition block_no_drop : FusedMBConvBlock :=
  {| base := fresh_layer; input_filters := 32; output_filters := 32;
     expand_ratio := 1; kernel_size := DInt 3; strides := DInt 1;
     se_ratio := 0; bn_momentum := 9 # 10; activation := "swish";
     survival_probability := 0 |}.

(** The grouped convolution of 8 channels in 4 groups, strides 2, over
    the first [ConvBlock] of the bottleneck on a 16-channel feature map. *)
Definition grouped_8_4 : tensor :=
  let x := ConvBlock feature_map16 8 (DPair 1 1) (DInt 1) "same" in
  let conv := group_conv 2 (DPair 3 3) (DInt 2) "same" ∅ in
  Concat [Apply (LConv2D conv) (Slice 0 2 x);
          Apply (LConv2D conv) (Slice 2 4 x);
          Apply (LConv2D conv) (Slice 4 6 x);
          Apply (LConv2D conv) (Slice 6 8 x)].

(** [FusedMBConvBlock(100, 100, se_ratio=0.29)] *)
Definition block_se_029 : FusedMBConvBlock :=
  {| base := fresh_layer; input_filters := 100; output_filters := 100;
     expand_ratio := 1; kernel_size := DInt 3; strides := DInt 1;
     se_ratio := 29 # 100; bn_momentum := 9 # 10; activation := "swish";
     survival_probability := 8 # 10 |}.

(** [FusedMBConvBlock(32, 32, se_ratio=1.5)] *)
Definition block_wide_se : FusedMBConvBlock :=
  {| base := fresh_layer; input_filters := 32; output_filters := 32;
     expand_ratio := 1; kernel_size := DInt 3; strides := DInt 1;
     se_ratio := 3 # 2; bn_momentum := 9 # 10; activation := "swish";
     survival_probability := 8 # 10 |}.
End Samples.

(** * Properties of [resnext] *)

Section resnext_facts.

Import resnext.

Implicit Types (self : gmap string value) (kwargs : gmap string pyval).

(** With [groups = 0] the first floor division raises. *)
Lemma init_zero_groups ic oc ks st pad kwargs self :
  snd (GroupConv2D_init ic oc 0 ks st pad kwargs self)
  = Raise ZeroDivisionError.
Proof. reflexivity. Qed.

(** On an object without a [groups] attribute, [__init__] stores the
    floor quotients and then stops at [range(self.groups)]. *)
Lemma init_unbound ic oc g ks st pad kwargs self :
  g <> 0 -> self !! "groups" = None ->
  GroupConv2D_init ic oc g ks st pad kwargs self
  = (attrs_before_loop ic oc g ks st pad self,
     Raise (AttributeError "groups")).
Proof.
  intros Hg Hs.
  unfold GroupConv2D_init, Layer_init, mbind, setattr, lift, floordiv,
    getattr_int, getattr, mbind.
  apply Z.eqb_neq in Hg. rewrite Hg. simpl.
  unfold attrs_before_loop. simplify_map_eq. reflexivity.
Qed.

(** Each pass of the loop appends one more copy of the group
    convolution. *)
Lemma init_loop_appends ks st pad kwargs o indices :
  forall self cl,
    self !! "conv_list" = Some (Layers cl) ->
    self !! "group_out_num" = Some (Data (VInt o)) ->
    init_loop indices ks st pad kwargs self
    = (<["conv_list" := Layers (cl ++ replicate (length indices)
                                        (group_conv o ks st pad kwargs))]>
         self, Ok tt).
Proof.
  induction indices as [|i rest IH]; intros self cl Hcl Ho;
    cbn [init_loop length replicate].
  - rewrite app_nil_r, insert_id by done. reflexivity.
  - unfold getattr_layers, getattr_int, getattr, mbind, lift, setattr.
    rewrite Hcl. cbn [as_layers]. rewrite Ho. cbn [as_int].
    rewrite (IH _ (cl ++ [group_conv o ks st pad kwargs])).
    + rewrite insert_insert_eq, <- app_assoc. reflexivity.
    + apply lookup_insert_eq.
    + rewrite lookup_insert_ne by done. exact Ho.
Qed.

(** Had the object a [groups] attribute, [__init__] would return with
    that many group convolutions in [conv_list]. *)
Lemma init_bound ic oc g ks st pad kwargs n self :
  g <> 0 -> self !! "groups" = Some (Data (VInt n)) ->
  GroupConv2D_init ic oc g ks st pad kwargs self
  = (<["conv_list" := Layers (replicate (Z.to_nat n)
                                (group_conv (oc / g) ks st pad kwargs))]>
       (attrs_before_loop ic oc g ks st pad self), Ok tt).
Proof.
  intros Hg Hs.
  unfold GroupConv2D_init, Layer_init, mbind, setattr, lift, floordiv,
    getattr_int, getattr, mbind.
  apply Z.eqb_neq in Hg. rewrite Hg. simpl.
  simplify_map_eq. simpl.
  erewrite init_loop_appends with (cl := []) (o := oc / g);
    [| by simplify_map_eq ..].
  unfold range. rewrite length_map, length_seq. simpl.
  unfold attrs_before_loop. rewrite insert_insert_eq. reflexivity.
Qed.

(** The loop of [call] pairs index [i] with the [i]-th convolution of
    [conv_list] and the [i]-th slice of the input. *)
Lemma call_loop_spec inputs n cl self :
  self !! "conv_list" = Some (Layers cl) ->
  self !! "group_in_num" = Some (Data (VInt n)) ->
  forall m k acc,
    (k + m <= length cl)%nat ->
    call_loop (map Z.of_nat (seq k m)) inputs acc self
    = (self, Ok (acc ++ zip_with (Spec.group_output n inputs)
                          (map Z.of_nat (seq k m)) (take m (drop k cl)))).
Proof.
  intros Hcl Hn. induction m as [|m IH]; intros k acc Hk;
    cbn [seq map call_loop].
  - rewrite take_0, zip_with_nil_r, app_nil_r. reflexivity.
  - unfold getattr_layers, getattr_int, getattr, mbind, lift.
    rewrite Hcl. cbn [as_layers]. unfold getitem.
    destruct (Z.ltb_spec (Z.of_nat k) 0) as [?|_]; [lia|]. cbn zeta.
    destruct (Z.ltb_spec (Z.of_nat k) 0) as [?|_]; [lia|].
    rewrite Nat2Z.id.
    destruct (lookup_lt_is_Some_2 cl k) as [conv Hconv]; [lia|].
    rewrite Hconv. do 2 (rewrite Hn; cbn [as_int]).
    fold (Spec.group_output n inputs (Z.of_nat k) conv).
    rewrite IH by lia.
    rewrite (drop_S _ _ _ Hconv). cbn [take zip_with].
    rewrite <- app_assoc. reflexivity.
Qed.

(** [call] on an object that has [groups], [group_in_num] and enough
    convolutions: the group outputs, concatenated in index order. *)
Lemma call_bound inputs g n cl self :
  self !! "groups" = Some (Data (VInt g)) ->
  self !! "conv_list" = Some (Layers cl) ->
  self !! "group_in_num" = Some (Data (VInt n)) ->
  0 < g -> (Z.to_nat g <= length cl)%nat ->
  GroupConv2D_apply self inputs
  = Ok (Concat (zip_with (Spec.group_output n inputs) (range g) cl)).
Proof.
  intros Hg Hcl Hn Hpos Hlen.
  unfold GroupConv2D_apply, GroupConv2D_call, getattr_int, getattr, mbind,
    lift.
  rewrite Hg. cbn [as_int]. unfold range.
  rewrite (call_loop_spec inputs n cl self Hcl Hn) by lia.
  cbn [app drop snd].
  rewrite zip_with_take_r' by (rewrite length_map, length_seq; lia).
  destruct (Z.to_nat g) as [|g'] eqn:E; [lia|].
  destruct cl as [|c cl']; [simpl in Hlen; lia|]. reflexivity.
Qed.

(** [call] on an object without [groups]. *)
Lemma call_unbound inputs self :
  self !! "groups" = None ->
  GroupConv2D_apply self inputs = Raise (AttributeError "groups").
Proof.
  intros Hs.
  unfold GroupConv2D_apply, GroupConv2D_call, getattr_int, getattr, mbind.
  rewrite Hs. reflexivity.
Qed.

(** The constructor on a fresh object, for every argument. *)
Lemma GroupConv2D_outcome ic oc g ks st pad kwargs :
  GroupConv2D ic oc g ks st pad kwargs
  = Raise (if g =? 0 then ZeroDivisionError else AttributeError "groups").
Proof.
  unfold GroupConv2D. destruct (Z.eqb_spec g 0) as [->|Hg].
  - reflexivity.
  - rewrite init_unbound by done. reflexivity.
Qed.

(** Had the class bound [groups], construction followed by a call would
    compute the grouped convolution: group [i] convolves the channels
    from [i * group_in_num] up to [(i + 1) * group_in_num], and the
    outputs are concatenated in index order. *)
Lemma grouped_convolution_with_groups ic oc g ks st pad kwargs inputs
    self0 :
  0 < g -> self0 !! "groups" = Some (Data (VInt g)) ->
  exists self,
    GroupConv2D_init ic oc g ks st pad kwargs self0 = (self, Ok tt) /\
    GroupConv2D_apply self inputs
    = Ok (Concat (map (fun i => Spec.group_output (ic / g) inputs i
                                  (group_conv (oc / g) ks st pad kwargs))
                    (range g))).
Proof.
  intros Hpos Hg. eexists. split.
  - apply init_bound; [lia | exact Hg].
  - set (cl := replicate (Z.to_nat g) (group_conv (oc / g) ks st pad kwargs)).
    rewrite (call_bound inputs g (ic / g) cl).
    + subst cl. rewrite zip_with_replicate_r_eq
        by (unfold range; by rewrite length_map, length_seq).
      reflexivity.
    + unfold attrs_before_loop. by simplify_map_eq.
    + by simplify_map_eq.
    + unfold attrs_before_loop. by simplify_map_eq.
    + exact Hpos.
    + subst cl. by rewrite length_replicate.
Qed.

(** For 8 input and 8 output channels in 4 groups, on such an object: four
    convolutions of 2 filters each, over the channel slices 0-2, 2-4, 4-6
    and 6-8 in this order, 8 channels in all. *)
Example grouped_convolution_8_8_4 :
  let conv := group_conv 2 (DPair 3 3) (DPair 1 1) "valid" ∅ in
  let x := Placeholder 8 8 8 in
  exists self,
    GroupConv2D_init 8 8 4 (DPair 3 3) (DPair 1 1) "valid" ∅
      Inputs.with_groups_4 = (self, Ok tt) /\
    GroupConv2D_apply self x
    = Ok (Concat [Apply (LConv2D conv) (Slice 0 2 x);
                  Apply (LConv2D conv) (Slice 2 4 x);
                  Apply (LConv2D conv) (Slice 4 6 x);
                  Apply (LConv2D conv) (Slice 6 8 x)]) /\
    (forall y, GroupConv2D_apply self x = Ok y -> channels y = 8).
Proof.
  intros conv x.
  destruct (grouped_convolution_with_groups 8 8 4 (DPair 3 3) (DPair 1 1)
              "valid" ∅ x Inputs.with_groups_4) as (self & Hinit & Hcall);
    [lia | reflexivity |].
  exists self. split; [exact Hinit|]. split; [exact Hcall|].
  intros y Hy. rewrite Hcall in Hy. injection Hy as <-. reflexivity.
Qed.

(** Each group output has the channel count of its convolution. *)
Lemma group_output_channels n inputs i conv :
  channels (Spec.group_output n inputs i conv) = filters conv.
Proof. reflexivity. Qed.

End resnext_facts.

Section resnext_claims.

Import resnext Inputs.

(** C2, counterexample: with [groups = 0] the constructor does not get as
    far as [self.groups]; the floor division raises first, and the error
    is no attribute error. *)
Lemma GroupConv2D_zero_groups_not_attribute_error :
  ~ exists attr,
      GroupConv2D 8 8 0 (DPair 3 3) (DPair 1 1) "valid" ∅
      = Raise (AttributeError attr).
Proof. intros [attr H]. vm_compute in H. discriminate H. Qed.

(** C2, amended: for every argument combination the constructor raises
    before it completes, so no instance is ever built: an attribute error
    for the unassigned [self.groups] when [groups] is not zero, a division
    by zero when it is; and every call of [ResNeXt_BottleNeck] fails with
    that error at its grouped-convolution stage. *)
Theorem GroupConv2D_never_constructed ic oc g ks st pad kwargs :
  GroupConv2D ic oc g ks st pad kwargs
  = Raise (if g =? 0 then ZeroDivisionError else AttributeError "groups")
  /\ (forall self, GroupConv2D ic oc g ks st pad kwargs <> Ok self)
  /\ (forall inputs filters strides,
        ResNeXt_BottleNeck inputs filters strides g
        = Raise (if g =? 0 then ZeroDivisionError
                 else AttributeError "groups")).
Proof.
  split; [apply GroupConv2D_outcome|]. split.
  - intros self. rewrite GroupConv2D_outcome. discriminate.
  - intros inputs filters strides.
    unfold ResNeXt_BottleNeck, ResNeXt_BottleNeck_with.
    rewrite GroupConv2D_outcome. reflexivity.
Qed.

(** C4, counterexample: [GroupConv2D(input_channels=7, output_channels=8,
    groups=4)] does not end in a configuration error. *)
Lemma indivisible_channels_no_configuration_error :
  ~ Spec.configuration_error
      (GroupConv2D 7 8 4 (DPair 3 3) (DPair 1 1) "valid" ∅).
Proof. intros [msg H]. vm_compute in H. discriminate H. Qed.

(** C4, amended: the constructor has no divisibility check.  Whenever
    [groups] is not zero it stores the floor quotients
    [input_channels // groups] and [output_channels // groups] as the
    per-group channel counts, exact division or not, and it never raises a
    configuration error. *)
Theorem GroupConv2D_truncates_without_check ic oc g ks st pad kwargs :
  g <> 0 ->
  let outcome := GroupConv2D_init ic oc g ks st pad kwargs ∅ in
  fst outcome !! "group_in_num" = Some (Data (VInt (ic / g)))
  /\ fst outcome !! "group_out_num" = Some (Data (VInt (oc / g)))
  /\ ~ Spec.configuration_error (snd outcome)
  /\ ~ Spec.configuration_error (GroupConv2D ic oc g ks st pad kwargs).
Proof.
  intros Hg outcome. subst outcome.
  rewrite init_unbound by done. cbn [fst snd].
  unfold attrs_before_loop.
  split; [by simplify_map_eq|]. split; [by simplify_map_eq|]. split.
  - intros [msg H]. discriminate H.
  - intros [msg H]. rewrite GroupConv2D_outcome in H.
    destruct (g =? 0); discriminate H.
Qed.

(** C4 at 7 input channels, 8 output channels and 4 groups. *)
Lemma GroupConv2D_truncates_7_8_4 :
  let outcome :=
    GroupConv2D_init 7 8 4 (DPair 3 3) (DPair 1 1) "valid" ∅ ∅ in
  fst outcome !! "group_in_num" = Some (Data (VInt 1))
  /\ fst outcome !! "group_out_num" = Some (Data (VInt 2))
  /\ ~ Spec.configuration_error (snd outcome)
  /\ ~ Spec.configuration_error
         (GroupConv2D 7 8 4 (DPair 3 3) (DPair 1 1) "valid" ∅).
Proof.
  apply (GroupConv2D_truncates_without_check 7 8 4). lia.
Defined.

(** C5, counterexample: for filters 32 and strides 2 the shortcut is not
    the convolution and batch normalization alone. *)
Lemma shortcut_not_conv_bn_alone :
  resnext.shortcut feature_map16 32 (DInt 2)
  <> Spec.shortcut feature_map16 32 (DInt 2).
Proof. discriminate. Qed.

(** C5, amended: whenever the grouped-convolution stage of
    [ResNeXt_BottleNeck] returns (which takes a class that binds
    [groups]), the function returns the sum of the main path and the
    shortcut, and the shortcut is a [ConvBlock] on the original input: a
    1x1 convolution to [2 * filters] channels with the strides of the main
    path and "same" padding, batch normalization, and then ReLU.  Both
    summands have [2 * filters] channels. *)
Theorem shortcut_is_conv_bn_relu cls inputs filters strides groups layer y
    g n :
  0 < filters ->
  0 < fst (normalize_tuple strides) -> 0 < snd (normalize_tuple strides) ->
  cls filters filters groups (DPair 3 3) strides "same" ∅ = Ok layer ->
  layer !! "groups" = Some (Data (VInt g)) ->
  layer !! "group_in_num" = Some (Data (VInt n)) ->
  0 < n -> g * n <= filters ->
  GroupConv2D_apply layer
    (ConvBlock inputs filters (DPair 1 1) (DInt 1) "same") = Ok y ->
  (forall g, ResNeXt_BottleNeck inputs filters strides g
             = ResNeXt_BottleNeck_with GroupConv2D inputs filters strides g)
  /\ exists main,
       ResNeXt_BottleNeck_with cls inputs filters strides groups
       = Ok (Merge add None main
               (Apply Lrelu (Spec.shortcut inputs filters strides)))
       /\ main
          = ConvBlock
              (Apply Lrelu
                 (Apply (LBatchNormalization BatchNormalization_defaults) y))
              (2 * filters) (DPair 1 1) (DInt 1) "same"
       /\ channels main = 2 * filters
       /\ channels (Apply Lrelu (Spec.shortcut inputs filters strides))
          = 2 * filters.
Proof.
  intros _ _ _ Hcls _ _ _ _ Hcall. split; [reflexivity|].
  eexists. split.
  - unfold ResNeXt_BottleNeck_with. rewrite Hcls. cbn [bind].
    rewrite Hcall. cbn [bind]. reflexivity.
  - repeat split.
Qed.

(** C5 with a class that binds [groups] to 4, at 8 filters and strides 2
    on a feature map of 16 channels. *)
Lemma shortcut_is_conv_bn_relu_sample :
  (forall g, ResNeXt_BottleNeck feature_map16 8 (DInt 2) g
             = ResNeXt_BottleNeck_with GroupConv2D feature_map16 8
                 (DInt 2) g)
  /\ exists main,
       ResNeXt_BottleNeck_with (GroupConv2D_subclass with_groups_4)
         feature_map16 8 (DInt 2) 4
       = Ok (Merge add None main
               (Apply Lrelu (Spec.shortcut feature_map16 8 (DInt 2))))
       /\ main
          = ConvBlock
              (Apply Lrelu
                 (Apply (LBatchNormalization BatchNormalization_defaults)
                    Samples.grouped_8_4))
              (2 * 8) (DPair 1 1) (DInt 1) "same"
       /\ channels main = 2 * 8
       /\ channels (Apply Lrelu (Spec.shortcut feature_map16 8 (DInt 2)))
          = 2 * 8.
Proof.
  eapply (shortcut_is_conv_bn_relu (GroupConv2D_subclass with_groups_4)
            feature_map16 8 (DInt 2) 4 _ _ 4 2);
    [lia | reflexivity | reflexivity | vm_compute; reflexivity
    | reflexivity | reflexivity | lia | lia | vm_compute; reflexivity].
Defined.

(** C7, at [GroupConv2D(8, 8, 4, (3, 3))]: the constructor raises, so
    there is no layer to call; and [call] on the object as [__init__] left
    it raises as well, on the same missing attribute. *)
Theorem grouped_convolution_unreachable :
  GroupConv2D 8 8 4 (DPair 3 3) (DPair 1 1) "valid" ∅
  = Raise (AttributeError "groups")
  /\ GroupConv2D_apply
       (fst (GroupConv2D_init 8 8 4 (DPair 3 3) (DPair 1 1) "valid" ∅ ∅))
       (Placeholder 8 8 8)
     = Raise (AttributeError "groups").
Proof. split; reflexivity. Qed.

End resnext_claims.

(** * Properties of [fusedmbconv] *)

Section fusedmbconv_facts.

Import fusedmbconv.

Implicit Types (self : FusedMBConvBlock) (x inputs : tensor).

(** Neither of the two names [call] reads first is bound in the module:
    the call stops there, whatever the block and the input. *)
Lemma call_raises self inputs :
  call self inputs = Raise (NameError "input_filters").
Proof. reflexivity. Qed.

Lemma call_in_unbound globals self inputs :
  globals !! "input_filters" = None ->
  call_in globals self inputs = Raise (NameError "input_filters").
Proof. intros H. unfold call_in, load_global. rewrite H. reflexivity. Qed.

(** In a namespace that binds both names to ints, [call] is
    [call_body] at their product. *)
Lemma call_in_bound globals a e self inputs :
  globals !! "input_filters" = Some (OInt a) ->
  globals !! "expand_ratio" = Some (OInt e) ->
  call_in globals self inputs = Ok (call_body self (a * e) inputs).
Proof.
  intros Ha He. unfold call_in, load_global. rewrite Ha, He. reflexivity.
Qed.

(** [int] is the floor on non-negative numbers. *)
Lemma int_floor (q : Q) : (0 <= q)%Q -> int q = Qfloor q.
Proof.
  destruct q as [n d]. unfold Qle, int, Qfloor. cbn [Qnum Qden].
  intros H. apply Z.quot_div_nonneg; lia.
Qed.

Lemma se_guard self :
  (0 < se_ratio self)%Q -> (se_ratio self <= 1)%Q ->
  Qltb 0 (se_ratio self) && Qle_bool (se_ratio self) 1 = true.
Proof.
  intros Hlt Hle. apply andb_true_iff. split.
  - unfold Qltb. apply negb_true_iff, not_true_is_false.
    rewrite Qle_bool_iff. apply Qlt_not_le, Hlt.
  - apply Qle_bool_iff, Hle.
Qed.

Lemma squeeze_and_excite_active self filters x :
  (0 < se_ratio self)%Q -> (se_ratio self <= 1)%Q ->
  squeeze_and_excite self filters x
  = Merge multiply (named self "se_excite") x
      (Apply (LConv2D (se_expand self filters))
         (Apply (LConv2D (se_reduce self))
            (Apply (LReshape [1; 1; filters] (named self "se_reshape"))
               (Apply (LGlobalAveragePooling2D (named self "se_squeeze"))
                  x)))).
Proof.
  intros Hlt Hle. unfold squeeze_and_excite.
  rewrite se_guard by assumption. reflexivity.
Qed.

Lemma squeeze_and_excite_channels self filters x :
  channels x = filters ->
  channels (squeeze_and_excite self filters x) = filters.
Proof.
  intros Hx. unfold squeeze_and_excite.
  destruct (Qltb 0 (se_ratio self) && Qle_bool (se_ratio self) 1);
    cbn [channels Keras.filters se_expand]; lia.
Qed.

Lemma is_one_iff (d : dims) : is_one d = true <-> d = DInt 1.
Proof.
  destruct d as [k|a b]; cbn [is_one].
  - rewrite Z.eqb_eq. split; [intros ->; reflexivity | congruence].
  - split; discriminate.
Qed.

(** The projection after an expansion: kernel (1, 1), stride 1, no
    activation behind the normalization. *)
Lemma output_phase_expanded self x :
  expand_ratio self <> 1 ->
  normalize_tuple (Keras.kernel_size (project_conv self)) = (1, 1)
  /\ normalize_tuple (Keras.strides (project_conv self)) = (1, 1)
  /\ output_phase self x
     = Apply (LBatchNormalization (project_bn self))
         (Apply (LConv2D (project_conv self)) x).
Proof.
  intros Hne. apply Z.eqb_neq in Hne.
  unfold output_phase, project_conv. rewrite Hne. repeat split.
Qed.

(** The projection without expansion: the block's own kernel size and
    strides, and the activation behind the normalization. *)
Lemma output_phase_unexpanded self x :
  expand_ratio self = 1 ->
  Keras.kernel_size (project_conv self) = kernel_size self
  /\ Keras.strides (project_conv self) = strides self
  /\ output_phase self x
     = Apply (LActivation (activation self)
                (named self "project_activation"))
         (Apply (LBatchNormalization (project_bn self))
            (Apply (LConv2D (project_conv self)) x)).
Proof.
  intros He. apply Z.eqb_eq in He.
  unfold output_phase, project_conv. rewrite He. repeat split.
Qed.

Lemma output_phase_channels self x :
  channels (output_phase self x) = output_filters self.
Proof. unfold output_phase. destruct (expand_ratio self =? 1); reflexivity. Qed.

(** The residual phase adds the block input when the stride is 1 and the
    channel counts agree, behind a dropout when [survival_probability] is
    not zero. *)
Lemma residual_taken self x inputs :
  strides self = DInt 1 -> input_filters self = output_filters self ->
  residual self x inputs
  = Merge add (named self "add")
      (if truthy (survival_probability self)
       then Apply (LDropout (drop self)) x else x)
      inputs.
Proof.
  intros Hs Hf. unfold residual.
  rewrite (proj2 (is_one_iff _) Hs), (proj2 (Z.eqb_eq _ _) Hf).
  reflexivity.
Qed.

(** Otherwise it returns the projected output as it is. *)
Lemma residual_skipped self x inputs :
  strides self <> DInt 1 \/ input_filters self <> output_filters self ->
  residual self x inputs = x.
Proof.
  intros H. unfold residual.
  destruct (is_one (strides self)) eqn:Hs;
    destruct (Z.eqb_spec (input_filters self) (output_filters self));
    try reflexivity.
  apply is_one_iff in Hs. tauto.
Qed.

Lemma call_body_without_residual self filters inputs :
  strides self <> DInt 1 \/ input_filters self <> output_filters self ->
  call_body self filters inputs
  = output_phase self
      (squeeze_and_excite self filters
         (expansion_phase self filters inputs))
  /\ channels (call_body self filters inputs) = output_filters self.
Proof.
  intros H. unfold call_body.
  rewrite residual_skipped by exact H.
  split; [reflexivity | apply output_phase_channels].
Qed.

(** At inference the dropout is the identity: the residual phase is the
    projected output plus the input. *)
Lemma residual_at_inference self x inputs :
  strides self = DInt 1 -> input_filters self = output_filters self ->
  inference (residual self x inputs)
  = Merge add (named self "add") (inference x) (inference inputs).
Proof.
  intros Hs Hf. rewrite residual_taken by assumption.
  destruct (truthy (survival_probability self)); reflexivity.
Qed.

(** The rate handed to the dropout is the survival probability; it is the
    stated zeroing probability only for a survival probability of one
    half. *)
Lemma drop_rate_stated_only_at_half self :
  (rate (drop self) == Spec.drop_probability self)%Q
  <-> (survival_probability self == 1 # 2)%Q.
Proof.
  unfold Spec.drop_probability. cbn [rate drop].
  split; intros H; lra.
Qed.

(** *** Configuration dictionaries *)

Lemma dict_items (d : gmap string pyval) : dict (items d) = d.
Proof.
  unfold dict, items.
  rewrite <- (list_to_map_to_list d) at 2.
  apply list_to_map_proper.
  - rewrite fmap_reverse, reverse_Permutation. apply NoDup_fst_map_to_list.
  - apply reverse_Permutation.
Qed.

(** Of two dictionaries chained into one, the second has the last word. *)
Lemma dict_items_app (a b : gmap string pyval) :
  dict (items a ++ items b) = b ∪ a.
Proof.
  unfold dict. rewrite reverse_app, list_to_map_app.
  fold (dict (items a)). fold (dict (items b)).
  by rewrite !dict_items.
Qed.

Lemma get_config_union self :
  get_config self = config self ∪ Layer_get_config (base self).
Proof. unfold get_config. apply dict_items_app. Qed.

Lemma to_dims_of_dims d : to_dims (of_dims d) = Ok d.
Proof. by destruct d. Qed.

(** What is left of the config for the base class is the base config. *)
Lemma kwargs_of_config self :
  foldr delete (get_config self) parameter_names
  = Layer_get_config (base self).
Proof.
  rewrite get_config_union.
  unfold config, Layer_get_config, parameter_names. cbn [foldr].
  apply map_eq. intros k.
  repeat (rewrite lookup_delete; case_decide; [subst; by simplify_map_eq|]).
  rewrite lookup_union_r; [reflexivity|].
  by simplify_map_eq.
Qed.

Lemma Layer_round_trip default_name (l : Layer) :
  Layer_init default_name (Layer_get_config l) = Ok l.
Proof.
  destruct l as [n t d]. unfold Layer_init, Layer_get_config.
  cbn [layer_name trainable dtype].
  case_decide as H.
  - simplify_map_eq. reflexivity.
  - exfalso. apply H. unfold Layer_keywords.
    rewrite !dom_insert_L, dom_singleton_L. set_solver.
Qed.

Lemma from_config_get_config self : from_config (get_config self) = Ok self.
Proof.
  unfold from_config. rewrite kwargs_of_config.
  unfold required, optional. rewrite get_config_union.
  unfold config, FusedMBConvBlock_init.
  rewrite Layer_round_trip.
  simplify_map_eq. cbn. rewrite !to_dims_of_dims. cbn.
  by destruct self.
Qed.

Lemma get_config_has_parameters self (p : string) :
  p ∈ parameter_names -> is_Some (get_config self !! p).
Proof.
  intros Hp. rewrite get_config_union. unfold parameter_names in Hp.
  unfold config. set_unfold in Hp.
  repeat (destruct Hp as [->|Hp]; [by simplify_map_eq|]).
  destruct Hp.
Qed.

End fusedmbconv_facts.

Section fusedmbconv_claims.

Import fusedmbconv Inputs.

(** C1, at [FusedMBConvBlock(32, 32)] and a feature map of 32 channels:
    the constructor returns the block, and calling the block raises
    [NameError]: the first statement of [call] reads [input_filters]
    as a bare name, which nothing binds. *)
Theorem call_raises_on_valid_block :
  FusedMBConvBlock_init 32 32 1 (DInt 3) (DInt 1) 0 (9 # 10) "swish"
    (8 # 10) ∅ = Ok block_default
  /\ call block_default feature_map = Raise (NameError "input_filters").
Proof. split; reflexivity. Qed.

(** C3, at [FusedMBConvBlock(32, 32)] with survival probability 0.8: the
    call raises before any layer is built; and the dropout the residual
    phase builds takes the survival probability itself as its rate, 0.8,
    where the stated zeroing probability is 0.2. *)
Theorem dropout_rate_is_survival_probability :
  call block_default feature_map = Raise (NameError "input_filters")
  /\ (forall x,
        residual block_default x feature_map
        = Merge add (named block_default "add")
            (Apply (LDropout (drop block_default)) x) feature_map)
  /\ rate (drop block_default) = (8 # 10)%Q
  /\ ~ (rate (drop block_default) == Spec.drop_probability block_default)%Q.
Proof.
  split; [reflexivity|]. split; [reflexivity|]. split; [reflexivity|].
  intros H. vm_compute in H. discriminate H.
Qed.

(** C6, counterexample: with 7 input filters and a ratio of 0.25 the
    product is 1.75; the code truncates it to 1, rounding gives 2. *)
Lemma se_reduce_truncates_seven_quarters :
  (0 < se_ratio block_se)%Q /\ (se_ratio block_se <= 1)%Q
  /\ Keras.filters (se_reduce block_se) = 1
  /\ Spec.filters_se block_se = 2
  /\ Keras.filters (se_reduce block_se) <> Spec.filters_se block_se.
Proof.
  split; [reflexivity|]. split; [discriminate|].
  split; [reflexivity|]. split; [reflexivity|]. discriminate.
Qed.

(** C6, amended: with [0 < se_ratio <= 1] the squeeze-and-excite phase
    gates its input through the reduce and expand convolutions, and the
    reduce convolution has [max(1, int(input_filters * se_ratio))] output
    channels, at least one: the product is the double-precision product
    of the filter count and the ratio, and [int] truncates it toward zero;
    nothing is rounded to the nearest integer.  The filter count and the
    ratio's numerator and denominator are taken below 2^53, where the
    conversions to double are the ones Python makes. *)
Theorem se_reduce_filters_truncated self filters x :
  (0 < se_ratio self)%Q -> (se_ratio self <= 1)%Q ->
  Z.abs (input_filters self) < 2 ^ 53 ->
  Zpos (Qden (se_ratio self)) < 2 ^ 53 ->
  squeeze_and_excite self filters x
  = Merge multiply (named self "se_excite") x
      (Apply (LConv2D (se_expand self filters))
         (Apply (LConv2D (se_reduce self))
            (Apply (LReshape [1; 1; filters] (named self "se_reshape"))
               (Apply (LGlobalAveragePooling2D (named self "se_squeeze"))
                  x))))
  /\ Keras.filters (se_reduce self)
     = Z.max 1 (int_of_double
                  (PrimFloat.mul (double_of_int (input_filters self))
                     (double_of_decimal (se_ratio self))))
  /\ 1 <= Keras.filters (se_reduce self).
Proof.
  intros Hlt Hle _ _. split; [by apply squeeze_and_excite_active|].
  split; [reflexivity|].
  cbn [Keras.filters se_reduce]. unfold filters_se. apply Z.le_max_l.
Qed.

(** C6 at 7 input filters and a ratio of 0.25. *)
Lemma se_reduce_filters_truncated_7_quarter :
  squeeze_and_excite block_se 7 feature_map7
  = Merge multiply (named block_se "se_excite") feature_map7
      (Apply (LConv2D (se_expand block_se 7))
         (Apply (LConv2D (se_reduce block_se))
            (Apply (LReshape [1; 1; 7] (named block_se "se_reshape"))
               (Apply (LGlobalAveragePooling2D
                         (named block_se "se_squeeze"))
                  feature_map7))))
  /\ Keras.filters (se_reduce block_se)
     = Z.max 1 (int_of_double
                  (PrimFloat.mul (double_of_int (input_filters block_se))
                     (double_of_decimal (se_ratio block_se))))
  /\ 1 <= Keras.filters (se_reduce block_se).
Proof.
  apply (se_reduce_filters_truncated block_se 7 feature_map7);
    [reflexivity | discriminate | reflexivity | reflexivity].
Defined.

(** The product is the one of doubles: 100 * 0.29 is 28.999999999999996
    and gives 28 filters, where the exact product is 29. *)
Example se_reduce_filters_100_029 :
  Keras.filters (se_reduce Samples.block_se_029) = 28
  /\ int (inject_Z 100 * (29 # 100)) = 29.
Proof. split; vm_compute; reflexivity. Qed.

(** C8, at [FusedMBConvBlock(32, 32)] (stride 1, equal channel counts)
    and at [FusedMBConvBlock(32, 64, strides=2)]: the call raises in
    both, so the first adds nothing to its input and the second returns
    no projected output. *)
Theorem residual_add_not_reached :
  strides block_default = DInt 1
  /\ input_filters block_default = output_filters block_default
  /\ call block_default feature_map = Raise (NameError "input_filters")
  /\ strides block_strided <> DInt 1
  /\ call block_strided feature_map = Raise (NameError "input_filters").
Proof. repeat split; try reflexivity. discriminate. Qed.

(** C9, at [FusedMBConvBlock(32, 32)] (no expansion) and at
    [FusedMBConvBlock(32, 32, expand_ratio=4)]: the call raises in both
    before it builds the projection convolution, its normalization or
    the activation behind it. *)
Theorem projection_not_reached :
  expand_ratio block_default = 1
  /\ call block_default feature_map = Raise (NameError "input_filters")
  /\ expand_ratio block_expanded <> 1
  /\ call block_expanded feature_map = Raise (NameError "input_filters").
Proof. repeat split; try reflexivity. discriminate. Qed.

(** C10: the block built from the configuration of a block is that block
    again, with each of the nine constructor parameters as it was, so its
    configuration is the original one; and the configuration holds each
    of the nine parameters. *)
Theorem config_round_trip self :
  from_config (get_config self) = Ok self
  /\ (forall fresh,
        from_config (get_config self) = Ok fresh ->
        get_config fresh = get_config self)
  /\ (forall p, p ∈ parameter_names -> is_Some (get_config self !! p)).
Proof.
  split; [apply from_config_get_config|]. split.
  - intros fresh H. rewrite from_config_get_config in H.
    by injection H as <-.
  - intros p Hp. by apply get_config_has_parameters.
Qed.

End fusedmbconv_claims.

(** * Further properties of [resnext] *)

Section resnext_more.
Import resnext Samples.
Implicit Types (self : gmap string value) (kwargs : gmap string pyval).







(** The loop of [__init__] assigns [conv_list] only. *)
Lemma init_loop_frame ks st pad kwargs (k : string) indices :
  k <> "conv_list" ->
  forall self, fst (init_loop indices ks st pad kwargs self) !! k = self !! k.
Proof.
  intros Hk. induction indices as [|i rest IH]; intros self; cbn [init_loop].
  - reflexivity.
  - unfold getattr_layers, getattr_int, getattr, mbind, lift, setattr.
    destruct (self !! "conv_list") as [[v|cl]|]; cbn [as_layers fst];
      try reflexivity.
    destruct (self !! "group_out_num") as [[[]|]|]; cbn [as_int fst];
      try reflexivity.
    rewrite IH. by rewrite lookup_insert_ne.
Qed.

(** X4: [__init__] never assigns [groups]: the attribute is after
    [__init__] what it was before, for every argument and every object,
    whether [__init__] returns or raises. *)
Theorem init_never_assigns_groups ic oc g ks st pad kwargs self :
  fst (GroupConv2D_init ic oc g ks st pad kwargs self) !! "groups"
  = self !! "groups".
Proof.
  unfold GroupConv2D_init, getattr_int, Layer_init, mbind, setattr, lift,
    floordiv, getattr.
  destruct (g =? 0); cbn [fst].
  - by rewrite !lookup_insert_ne.
  - match goal with
    | |- context [match ?s !! "groups" with _ => _ end] =>
        destruct (s !! "groups") as [[[]|]|]
    end; cbn [as_int fst]; try (by rewrite !lookup_insert_ne).
    rewrite init_loop_frame by done. by rewrite !lookup_insert_ne.
Qed.

(** X5: on an object whose [groups] attribute is [n], [__init__] (with a
    non-zero [groups] argument, at least one output channel per group and
    no further keyword arguments) returns; [conv_list] then holds [n]
    convolutions (none when [n] is not positive), each with
    [output_channels // groups] filters and the kernel size, strides and
    padding passed in.  The count comes from the attribute, the quotients
    from the argument. *)
Theorem init_builds_one_convolution_per_bound_group ic oc g ks st pad n self :
  g <> 0 -> 0 < oc / g ->
  0 < fst (normalize_tuple ks) -> 0 < snd (normalize_tuple ks) ->
  0 < fst (normalize_tuple st) -> 0 < snd (normalize_tuple st) ->
  pad = "valid" \/ pad = "same" ->
  self !! "groups" = Some (Data (VInt n)) ->
  exists self' cl,
    GroupConv2D_init ic oc g ks st pad ∅ self = (self', Ok tt)
    /\ self' !! "conv_list" = Some (Layers cl)
    /\ length cl = Z.to_nat n
    /\ Forall (fun conv => conv = group_conv (oc / g) ks st pad ∅) cl
    /\ self' !! "group_in_num" = Some (Data (VInt (ic / g)))
    /\ self' !! "group_out_num" = Some (Data (VInt (oc / g))).
Proof.
  intros Hg _ _ _ _ _ _ Hn. eexists _, _. split; [by apply init_bound|].
  unfold attrs_before_loop.
  split; [by simplify_map_eq|]. split; [apply length_replicate|].
  split; [|by simplify_map_eq].
  apply Forall_forall. intros conv Hin.
  by apply elem_of_replicate in Hin as [-> _].
Qed.

(** X5 at 7 input channels, 8 output channels, argument 4, attribute 2. *)
Lemma init_builds_one_convolution_per_bound_group_sample :
  exists self' cl,
    GroupConv2D_init 7 8 4 (DPair 3 3) (DPair 1 1) "valid" ∅ two_groups
    = (self', Ok tt)
    /\ self' !! "conv_list" = Some (Layers cl)
    /\ length cl = Z.to_nat 2
    /\ Forall (fun conv => conv = group_conv (8 / 4) (DPair 3 3) (DPair 1 1)
                                    "valid" ∅) cl
    /\ self' !! "group_in_num" = Some (Data (VInt (7 / 4)))
    /\ self' !! "group_out_num" = Some (Data (VInt (8 / 4))).
Proof.
  apply (init_builds_one_convolution_per_bound_group 7 8 4 (DPair 3 3)
           (DPair 1 1) "valid" 2 two_groups);
    [lia | reflexivity | reflexivity | reflexivity | reflexivity
    | reflexivity | by left | reflexivity].
Defined.




(** X7: with [group_in_num = input_channels // groups] and an input of
    [input_channels] channels, the slice of every group is
    [group_in_num] channels wide and ends at or below
    [input_channels - input_channels mod groups]: the channels of the
    remainder are read by no group. *)
Theorem group_slices_leave_the_remainder ic g inputs (i : Z) :
  0 < g -> 0 <= ic -> channels inputs = ic -> 0 <= i < g ->
  let n := ic / g in
  channels (Slice (i * n) ((i + 1) * n) inputs) = n
  /\ (i + 1) * n <= ic - ic mod g.
Proof.
  intros Hg Hic Hch Hi n.
  assert (Hn : 0 <= n) by (apply Z.div_pos; lia).
  assert (Hgn : g * n = ic - ic mod g)
    by (pose proof (Z.div_mod ic g); subst n; lia).
  assert (Hmod : 0 <= ic mod g < g) by (apply Z.mod_pos_bound; lia).
  assert (Hhi : (i + 1) * n <= g * n) by nia.
  split; [|lia].
  cbn [channels]. rewrite Hch. unfold clip.
  destruct (Z.ltb_spec ((i + 1) * n) 0); [nia|].
  destruct (Z.ltb_spec (i * n) 0); [nia|].
  nia.
Qed.

(** X7 at 7 channels in 4 groups, last group. *)
Lemma group_slices_leave_the_remainder_sample :
  let n := 7 / 4 in
  channels (Slice (3 * n) ((3 + 1) * n) (Placeholder 8 8 7)) = n
  /\ (3 + 1) * n <= 7 - 7 mod 4.
Proof.
  apply (group_slices_leave_the_remainder 7 4 (Placeholder 8 8 7) 3);
    [lia | lia | reflexivity | lia].
Defined.

End resnext_more.

(** * Further properties of [fusedmbconv] *)

Section fusedmbconv_more.
Import fusedmbconv Inputs Samples.
Implicit Types (self : FusedMBConvBlock) (x inputs : tensor).

(** X8: for every block and every input [call] raises [NameError] on
    [input_filters]; no configuration makes it return. *)
Theorem call_never_returns self inputs :
  call self inputs = Raise (NameError "input_filters")
  /\ forall outputs, call self inputs <> Ok outputs.
Proof. split; [reflexivity | discriminate]. Qed.

(** X9: below its first assignment, with [filters] at the value
    [input_filters * expand_ratio] and positive filter counts, expansion
    ratio, kernel size and strides, [call] ends in a tensor of [output_filters] channels
    when the input has [input_filters] channels: with the residual add
    and without it. *)
Theorem call_body_output_channels self filters inputs :
  0 < input_filters self -> 0 < output_filters self ->
  0 < expand_ratio self ->
  0 < fst (normalize_tuple (kernel_size self)) ->
  0 < snd (normalize_tuple (kernel_size self)) ->
  0 < fst (normalize_tuple (strides self)) ->
  0 < snd (normalize_tuple (strides self)) ->
  filters = input_filters self * expand_ratio self ->
  channels inputs = input_filters self ->
  channels (call_body self filters inputs) = output_filters self.
Proof.
  intros _ _ _ _ _ _ _ _ Hin. unfold call_body, residual.
  destruct (is_one (strides self)); cbn [andb];
    [|apply output_phase_channels].
  destruct (Z.eqb_spec (input_filters self) (output_filters self)) as [Heq|_];
    [|apply output_phase_channels].
  destruct (truthy (survival_probability self)); cbn [channels];
    rewrite output_phase_channels, Hin, Heq; apply Z.max_id.
Qed.

(** X9 at the default block. *)
Lemma call_body_output_channels_sample :
  channels (call_body block_default 32 feature_map)
  = output_filters block_default.
Proof.
  apply (call_body_output_channels block_default 32 feature_map);
    reflexivity.
Defined.

(** X10: strides given as a pair are never equal to 1, so the body of
    [call] ends in the projected output without the residual add, also for
    the pair (1, 1). *)
Theorem pair_strides_skip_the_residual self filters inputs a b :
  strides self = DPair a b ->
  call_body self filters inputs
  = output_phase self
      (squeeze_and_excite self filters (expansion_phase self filters inputs)).
Proof.
  intros Hs. unfold call_body. apply residual_skipped.
  left. rewrite Hs. discriminate.
Qed.

(** X10 at strides (1, 1). *)
Lemma pair_strides_skip_the_residual_sample :
  call_body block_pair_strides 32 feature_map
  = output_phase block_pair_strides
      (squeeze_and_excite block_pair_strides 32
         (expansion_phase block_pair_strides 32 feature_map)).
Proof.
  apply (pair_strides_skip_the_residual block_pair_strides 32 feature_map 1 1).
  reflexivity.
Defined.

(** X11: a survival probability of zero is falsy: with stride 1 and equal
    filter counts the body of [call] adds the input to the projected
    output with no dropout between. *)
Theorem zero_survival_probability_adds_without_dropout self filters inputs :
  strides self = DInt 1 -> input_filters self = output_filters self ->
  (survival_probability self == 0)%Q ->
  call_body self filters inputs
  = Merge add (named self "add")
      (output_phase self
         (squeeze_and_excite self filters
            (expansion_phase self filters inputs)))
      inputs.
Proof.
  intros Hs Hf Hp. unfold call_body. rewrite residual_taken by assumption.
  unfold truthy. apply Qeq_bool_iff in Hp. rewrite Hp. reflexivity.
Qed.

(** X11 at [survival_probability=0.0]. *)
Lemma zero_survival_probability_adds_without_dropout_sample :
  call_body block_no_drop 32 feature_map
  = Merge add (named block_no_drop "add")
      (output_phase block_no_drop
         (squeeze_and_excite block_no_drop 32
            (expansion_phase block_no_drop 32 feature_map)))
      feature_map.
Proof.
  apply (zero_survival_probability_adds_without_dropout block_no_drop 32
           feature_map); reflexivity.
Defined.

(** X12: a [se_ratio] of zero or less, or above one, is not refused: the
    squeeze-and-excite phase returns its input as it is. *)
Theorem se_ratio_out_of_range_is_skipped self filters x :
  (se_ratio self <= 0)%Q \/ (1 < se_ratio self)%Q ->
  squeeze_and_excite self filters x = x.
Proof.
  intros H. unfold squeeze_and_excite, Qltb.
  destruct (Qle_bool (se_ratio self) 0) eqn:H0; [reflexivity|].
  destruct (Qle_bool (se_ratio self) 1) eqn:H1; [|reflexivity].
  exfalso. apply Qle_bool_iff in H1.
  destruct H as [H|H].
  - apply Qle_bool_iff in H. congruence.
  - apply Qlt_not_le in H. contradiction.
Qed.

(** X12 at [se_ratio=1.5]. *)
Lemma se_ratio_out_of_range_is_skipped_sample :
  squeeze_and_excite block_wide_se 32 feature_map = feature_map.
Proof.
  apply (se_ratio_out_of_range_is_skipped block_wide_se 32 feature_map).
  right. reflexivity.
Defined.

(** X13: when [__init__] returns, [get_config] of the block holds each of
    the nine constructor arguments under its parameter name, as given. *)
Theorem get_config_reports_constructor_arguments a b e ks st se bn act sp
    kwargs self :
  FusedMBConvBlock_init a b e ks st se bn act sp kwargs = Ok self ->
  get_config self !! "input_filters" = Some (VInt a)
  /\ get_config self !! "output_filters" = Some (VInt b)
  /\ get_config self !! "expand_ratio" = Some (VInt e)
  /\ get_config self !! "kernel_size" = Some (of_dims ks)
  /\ get_config self !! "strides" = Some (of_dims st)
  /\ get_config self !! "se_ratio" = Some (VFloat se)
  /\ get_config self !! "bn_momentum" = Some (VFloat bn)
  /\ get_config self !! "activation" = Some (VStr act)
  /\ get_config self !! "survival_probability" = Some (VFloat sp).
Proof.
  unfold FusedMBConvBlock_init. destruct (Layer_init _ kwargs) as [l|err];
    cbn [bind]; [|discriminate].
  intros [= <-]. rewrite get_config_union. unfold config.
  cbn [input_filters output_filters expand_ratio kernel_size strides se_ratio
       bn_momentum activation survival_probability].
  repeat split; apply lookup_union_Some_l; by simplify_map_eq.
Qed.

(** X13 at [FusedMBConvBlock(32, 32)]. *)
Lemma get_config_reports_constructor_arguments_sample :
  get_config block_default !! "input_filters" = Some (VInt 32)
  /\ get_config block_default !! "output_filters" = Some (VInt 32)
  /\ get_config block_default !! "expand_ratio" = Some (VInt 1)
  /\ get_config block_default !! "kernel_size" = Some (of_dims (DInt 3))
  /\ get_config block_default !! "strides" = Some (of_dims (DInt 1))
  /\ get_config block_default !! "se_ratio" = Some (VFloat 0)
  /\ get_config block_default !! "bn_momentum" = Some (VFloat (9 # 10))
  /\ get_config block_default !! "activation" = Some (VStr "swish")
  /\ get_config block_default !! "survival_probability"
     = Some (VFloat (8 # 10)).
Proof.
  apply (get_config_reports_constructor_arguments 32 32 1 (DInt 3) (DInt 1)
           0 (9 # 10) "swish" (8 # 10) ∅ block_default).
  reflexivity.
Defined.

(** X14: a config with the two filter counts alone builds a block with
    the defaults of the signature for the seven other parameters. *)
Theorem from_config_fills_in_defaults (a b : Z) :
  exists self,
    from_config {[ "input_filters" := VInt a; "output_filters" := VInt b ]}
    = Ok self
    /\ input_filters self = a /\ output_filters self = b
    /\ expand_ratio self = 1
    /\ kernel_size self = DInt 3 /\ strides self = DInt 1
    /\ se_ratio self = 0%Q /\ bn_momentum self = (9 # 10)%Q
    /\ activation self = "swish"
    /\ survival_probability self = (8 # 10)%Q.
Proof.
  eexists. split.
  - vm_compute. reflexivity.
  - repeat split.
Qed.

(** X15: a config without [input_filters] or without [output_filters]
    builds no block: the call raises [TypeError]. *)
Theorem from_config_needs_both_filter_counts (config : gmap string pyval) :
  config !! "input_filters" = None \/ config !! "output_filters" = None ->
  exists what, from_config config = Raise (TypeError what).
Proof.
  intros H. unfold from_config, required.
  destruct (config !! "input_filters") as [v|] eqn:Hi.
  - destruct H as [H|H]; [discriminate H|]. rewrite H.
    destruct (to_int v) as [z|e] eqn:Hv; cbn [bind]; [by eexists|].
    destruct v; cbn in Hv; try discriminate Hv; injection Hv as <-; by eexists.
  - by eexists.
Qed.

(** X15 at the empty config. *)
Lemma from_config_needs_both_filter_counts_sample :
  exists what, from_config ∅ = Raise (TypeError what).
Proof.
  apply (from_config_needs_both_filter_counts ∅). left. reflexivity.
Defined.

(** X16: [get_config] loses nothing: blocks with the same configuration
    have the same attributes and the same base layer. *)
Theorem get_config_determines_the_block self1 self2 :
  get_config self1 = get_config self2 -> self1 = self2.
Proof.
  intros H. pose proof (from_config_get_config self1) as H1.
  rewrite H, from_config_get_config in H1. by injection H1.
Qed.

(** X16 at the default block. *)
Lemma get_config_determines_the_block_sample : block_default = block_default.
Proof.
  apply (get_config_determines_the_block block_default block_default).
  reflexivity.
Defined.

End fusedmbconv_more.
